(** * A model of the todo REST routes (routes/todos.ts) and the Todo model
    (models/Todo.ts).

    The handlers are embedded in a small state-and-exception monad whose
    state is the document store together with the log of store calls the
    handler made.  Exceptions are the faults that reach the handlers'
    [catch] blocks: JavaScript [TypeError]s, Mongoose [CastError]s and
    Mongoose [ValidationError]s.  Strings are Rocq strings, one character
    per JavaScript code unit; timestamps are milliseconds as [Z]. *)

From Stdlib Require Import ZArith String Ascii List Bool Lia.
From stdpp Require Import base list sorting.
Import ListNotations.
Open Scope string_scope.

(** ** JavaScript values found in a parsed JSON request body *)

Inductive jsval :=
| JUndefined
| JNull
| JBool (b : bool)
| JNum (z : Z)
| JStr (s : string)
| JObj.  (* any array or object *)

(** A parsed body object; a missing key reads as [undefined]. *)
Definition body := list (string * jsval).

Fixpoint prop (b : body) (k : string) : jsval :=
  match b with
  | [] => JUndefined
  | (k', v) :: b' => if String.eqb k k' then v else prop b' k
  end.

Definition jsval_eqb (v w : jsval) : bool :=
  match v, w with
  | JUndefined, JUndefined | JNull, JNull => true
  | JBool a, JBool b => Bool.eqb a b
  | JNum a, JNum b => Z.eqb a b
  | JStr a, JStr b => String.eqb a b
  | JObj, JObj => true
  | _, _ => false
  end.

(** JavaScript truthiness ([!v] is [negb (truthy v)]). *)
Definition truthy (v : jsval) : bool :=
  match v with
  | JUndefined | JNull => false
  | JBool b => b
  | JNum z => negb (Z.eqb z 0)
  | JStr s => negb (String.eqb s "")
  | JObj => true
  end.

(** ** String.prototype.trim *)

(** Whitespace removed by [trim], restricted to the 8-bit code units:
    TAB, LF, VT, FF, CR, SPACE and NO-BREAK SPACE. *)
Definition is_ws (c : ascii) : bool :=
  let n := nat_of_ascii c in
  ((9 <=? n) && (n <=? 13))%nat || (n =? 32)%nat || (n =? 160)%nat.

Fixpoint drop_ws (l : list ascii) : list ascii :=
  match l with
  | [] => []
  | c :: l' => if is_ws c then drop_ws l' else l
  end.

Definition trim (s : string) : string :=
  string_of_list_ascii
    (rev (drop_ws (rev (drop_ws (list_ascii_of_string s))))).

(** ** mongoose.Types.ObjectId.isValid (bson 6): a 24-character hex string *)

Definition is_hex (c : ascii) : bool :=
  let n := nat_of_ascii c in
  ((48 <=? n) && (n <=? 57))%nat || ((65 <=? n) && (n <=? 70))%nat
  || ((97 <=? n) && (n <=? 102))%nat.

Definition isValid (id : string) : bool :=
  (String.length id =? 24)%nat && forallb is_hex (list_ascii_of_string id).

Definition lower (c : ascii) : ascii :=
  let n := nat_of_ascii c in
  if ((65 <=? n) && (n <=? 90))%nat then ascii_of_nat (n + 32) else c.

(** Casting a path id to an ObjectId: its canonical (lower-case) hex form. *)
Definition cast_oid (id : string) : option string :=
  if isValid id
  then Some (string_of_list_ascii (map lower (list_ascii_of_string id)))
  else None.

Definition hex_digit (n : N) : ascii :=
  if (n <? 10)%N then ascii_of_N (48 + n) else ascii_of_N (87 + n).

(** The store's fresh identifiers: the 24 hex digits of a counter. *)
Fixpoint hex_digits (k : nat) (n : N) (acc : list ascii) : list ascii :=
  match k with
  | O => acc
  | S k' => hex_digits k' (n / 16)%N (hex_digit (n mod 16)%N :: acc)
  end.

Definition oid_of_N (n : N) : string := string_of_list_ascii (hex_digits 24 n []).

(** ** The Todo document (models/Todo.ts) *)

(** [completed] is [option bool]: the schema defaults it to [false] on
    creation, but an update may [$set] it to [null]. *)
Record todo := mkTodo {
  todo_id : string;
  title : string;
  description : option string;
  completed : option bool;
  createdAt : Z;
  updatedAt : Z
}.

Record store := mkStore {
  docs : list todo;       (* natural (insertion) order *)
  next_oid : N
}.

Inductive fault :=
| TypeError
| CastError (path : string)
| ValidationError (path : string) (rule : string).

(** Store operations, as recorded in the call log. *)
Inductive call :=
| CallFind
| CallFindById (id : string)
| CallSave
| CallFindByIdAndUpdate (id : string)
| CallFindByIdAndDelete (id : string).

Record world := mkWorld { st : store; calls : list call }.

(** ** The handler monad: state over [world], exceptions over [fault] *)

Inductive outcome (A : Type) :=
| Ok (a : A)
| Thrown (f : fault).
Arguments Ok {A} a.
Arguments Thrown {A} f.

Definition M (A : Type) := world -> outcome A * world.

Definition ret {A} (a : A) : M A := fun w => (Ok a, w).
Definition throw {A} (f : fault) : M A := fun w => (Thrown f, w).
Definition bind {A B} (m : M A) (k : A -> M B) : M B :=
  fun w => match m w with
           | (Ok a, w') => k a w'
           | (Thrown f, w') => (Thrown f, w')
           end.
Definition try_catch {A} (m : M A) (h : fault -> M A) : M A :=
  fun w => match m w with
           | (Ok a, w') => (Ok a, w')
           | (Thrown f, w') => h f w'
           end.

Notation "x <- m ;; k" := (bind m (fun x => k))
  (at level 100, m at next level, right associativity).
Notation "m ;;; k" := (bind m (fun _ => k))
  (at level 100, right associativity).

Definition get_store : M store := fun w => (Ok (st w), w).
Definition put_store (s : store) : M unit :=
  fun w => (Ok tt, mkWorld s (calls w)).
Definition log_call (c : call) : M unit :=
  fun w => (Ok tt, mkWorld (st w) (calls w ++ [c])).

(** ** Schema setters and validators *)

(** [title]: required, trim, maxlength 100.  A required string fails on "". *)
Definition validate_title (t : string) : option fault :=
  if (String.length t =? 0)%nat then Some (ValidationError "title" "required")
  else if (100 <? String.length t)%nat then Some (ValidationError "title" "maxlength")
  else None.

(** [description]: trim, maxlength 500. *)
Definition validate_description (d : option string) : option fault :=
  match d with
  | Some s => if (500 <? String.length s)%nat
              then Some (ValidationError "description" "maxlength") else None
  | None => None
  end.

(** ** Store primitives (Mongoose model methods) *)

(** [Todo.find().sort({ createdAt: -1 })] *)
Definition newer_or_same (a b : todo) : Prop := (createdAt b <= createdAt a)%Z.
#[global] Instance newer_or_same_dec : RelDecision newer_or_same.
Proof. intros a b. unfold newer_or_same. apply _. Defined.

Definition Todo_find_sorted : M (list todo) :=
  log_call CallFind ;;;
  s <- get_store ;;
  ret (merge_sort newer_or_same (docs s)).

Definition find_doc (oid : string) (l : list todo) : option todo :=
  List.find (fun d => String.eqb (todo_id d) oid) l.

(** [Todo.findById(id)] *)
Definition Todo_findById (id : string) : M (option todo) :=
  log_call (CallFindById id) ;;;
  match cast_oid id with
  | None => throw (CastError "_id")
  | Some oid => s <- get_store ;; ret (find_doc oid (docs s))
  end.

(** [new Todo({ title, description }).save()] at time [now]: setters
    (trim), validation, then insertion with a fresh id, [completed]
    defaulted to [false] and both timestamps set to [now]. *)
Definition Todo_new_save (now : Z) (t : string) (d : jsval) : M todo :=
  log_call CallSave ;;;
  let t' := trim t in
  let d' := match d with JStr s => Some (trim s) | _ => None end in
  match validate_title t', validate_description d' with
  | Some e, _ | None, Some e => throw e
  | None, None =>
      s <- get_store ;;
      let doc := mkTodo (oid_of_N (next_oid s)) t' d' (Some false) now now in
      put_store (mkStore (docs s ++ [doc]) (N.succ (next_oid s))) ;;;
      ret doc
  end.

(** The update document after Mongoose has cast it: a path is [Some] when
    the update sets it. *)
Record todo_update := mkUpdate {
  u_title : option string;
  u_description : option string;
  u_completed : option (option bool)
}.

Definition empty_update : todo_update := mkUpdate None None None.

(** Mongoose's Boolean cast; [None] is a [CastError], [Some None] is [null]. *)
Definition cast_boolean (v : jsval) : option (option bool) :=
  match v with
  | JUndefined | JNull => Some None
  | JBool b => Some (Some b)
  | JNum z => if Z.eqb z 1 then Some (Some true)
              else if Z.eqb z 0 then Some (Some false) else None
  | JStr s => if existsb (String.eqb s) ["true"; "1"; "yes"] then Some (Some true)
              else if existsb (String.eqb s) ["false"; "0"; "no"] then Some (Some false)
              else None
  | JObj => None
  end.

(** Casting an update object.  Keys whose value is [undefined] are
    stripped (Mongoose 7 and later); [title] and [description] go through
    their [trim] setter; only string values reach them from the routes. *)
Fixpoint cast_update (u : body) (acc : todo_update) : outcome todo_update :=
  match u with
  | [] => Ok acc
  | (k, v) :: u' =>
      if jsval_eqb v JUndefined then cast_update u' acc
      else if String.eqb k "title" then
        match v with
        | JStr s => cast_update u' (mkUpdate (Some (trim s)) (u_description acc) (u_completed acc))
        | _ => Thrown (CastError "title")
        end
      else if String.eqb k "description" then
        match v with
        | JStr s => cast_update u' (mkUpdate (u_title acc) (Some (trim s)) (u_completed acc))
        | _ => Thrown (CastError "description")
        end
      else if String.eqb k "completed" then
        match cast_boolean v with
        | Some c => cast_update u' (mkUpdate (u_title acc) (u_description acc) (Some c))
        | None => Thrown (CastError "completed")
        end
      else cast_update u' acc
  end.

(** Update validators ([runValidators: true]) run on the updated paths only. *)
Definition validate_update (u : todo_update) : option fault :=
  match (match u_title u with Some t => validate_title t | None => None end) with
  | Some e => Some e
  | None => match u_description u with
            | Some d => validate_description (Some d)
            | None => None
            end
  end.

Definition override {A} (old : A) (new : option A) : A :=
  match new with Some a => a | None => old end.

(** The [$set] of the update, plus the [updatedAt] timestamp. *)
Definition apply_update (now : Z) (u : todo_update) (d : todo) : todo :=
  mkTodo (todo_id d)
         (override (title d) (u_title u))
         (match u_description u with Some s => Some s | None => description d end)
         (override (completed d) (u_completed u))
         (createdAt d)
         now.

(** [Todo.findByIdAndUpdate(id, update, { new: true, runValidators: true })] *)
Definition Todo_findByIdAndUpdate (now : Z) (id : string) (upd : body)
  : M (option todo) :=
  log_call (CallFindByIdAndUpdate id) ;;;
  match cast_oid id with
  | None => throw (CastError "_id")
  | Some oid =>
      match cast_update upd empty_update with
      | Thrown e => throw e
      | Ok u =>
          match validate_update u with
          | Some e => throw e
          | None =>
              s <- get_store ;;
              match find_doc oid (docs s) with
              | None => ret None
              | Some d =>
                  let d' := apply_update now u d in
                  put_store (mkStore (map (fun x => if String.eqb (todo_id x) oid
                                                    then d' else x) (docs s))
                                     (next_oid s)) ;;;
                  ret (Some d')
              end
          end
      end
  end.

(** [Todo.findByIdAndDelete(id)] *)
Definition Todo_findByIdAndDelete (id : string) : M (option todo) :=
  log_call (CallFindByIdAndDelete id) ;;;
  match cast_oid id with
  | None => throw (CastError "_id")
  | Some oid =>
      s <- get_store ;;
      match find_doc oid (docs s) with
      | None => ret None
      | Some d =>
          put_store (mkStore (List.filter (fun x => negb (String.eqb (todo_id x) oid)) (docs s))
                             (next_oid s)) ;;;
          ret (Some d)
      end
  end.

(** ** Responses *)

Inductive payload :=
| NoData
| One (t : todo)
| Many (ts : list todo).

Record response := mkResponse {
  status : Z;
  success : bool;
  message : option string;
  data : payload;
  count : option nat;
  error : option fault
}.

Definition fail_resp (code : Z) (msg : string) : response :=
  mkResponse code false (Some msg) NoData None None.

Definition err500 (msg : string) (e : fault) : response :=
  mkResponse 500 false (Some msg) NoData None (Some e).

Definition invalid_id_msg := "Invalid todo ID format".
Definition not_found_msg := "Todo not found".
Definition title_required_msg := "Title is required".
Definition no_field_msg :=
  "At least one field (title, description, or completed) must be provided for update".

(** [v.trim()] on a value of any type *)
Definition trim_js (v : jsval) : M string :=
  match v with
  | JStr s => ret (trim s)
  | _ => throw TypeError
  end.

(** [v?.trim() || undefined] *)
Definition trim_or_undefined (v : jsval) : M jsval :=
  match v with
  | JUndefined | JNull => ret JUndefined
  | JStr s => let t := trim s in ret (if String.eqb t "" then JUndefined else JStr t)
  | _ => throw TypeError
  end.

(** ** Route handlers (routes/todos.ts) *)

(** GET /api/todos *)
Definition get_todos : M response :=
  try_catch
    (todos <- Todo_find_sorted ;;
     ret (mkResponse 200 true None (Many todos) (Some (length todos)) None))
    (fun e => ret (err500 "Failed to fetch todos" e)).

(** GET /api/todos/:id *)
Definition get_todo (id : string) : M response :=
  try_catch
    (if negb (isValid id) then ret (fail_resp 400 invalid_id_msg) else
     todo <- Todo_findById id ;;
     match todo with
     | None => ret (fail_resp 404 not_found_msg)
     | Some t => ret (mkResponse 200 true None (One t) None None)
     end)
    (fun e => ret (err500 "Failed to fetch todo" e)).

(** POST /api/todos *)
Definition post_todo (now : Z) (b : body) : M response :=
  try_catch
    (let title := prop b "title" in
     let description := prop b "description" in
     if negb (truthy title) then ret (fail_resp 400 title_required_msg) else
     tt <- trim_js title ;;
     if String.eqb tt "" then ret (fail_resp 400 title_required_msg) else
     t' <- trim_js title ;;
     d' <- trim_or_undefined description ;;
     savedTodo <- Todo_new_save now t' d' ;;
     ret (mkResponse 201 true (Some "Todo created successfully") (One savedTodo) None None))
    (fun e => ret (err500 "Failed to create todo" e)).

(** The [updateData] object built by PUT, keys in insertion order;
    [description] may be present with the value [undefined]. *)
Definition build_update (title description completed : jsval) : M body :=
  u1 <- (if jsval_eqb title JUndefined then ret []
         else t' <- trim_js title ;; ret [("title", JStr t')]) ;;
  u2 <- (if jsval_eqb description JUndefined then ret u1
         else d' <- trim_or_undefined description ;; ret (u1 ++ [("description", d')])%list) ;;
  ret (if jsval_eqb completed JUndefined then u2 else (u2 ++ [("completed", completed)])%list).

(** PUT /api/todos/:id *)
Definition put_todo (now : Z) (id : string) (b : body) : M response :=
  try_catch
    (let title := prop b "title" in
     let description := prop b "description" in
     let completed := prop b "completed" in
     if negb (isValid id) then ret (fail_resp 400 invalid_id_msg) else
     updateData <- build_update title description completed ;;
     if (length updateData =? 0)%nat then ret (fail_resp 400 no_field_msg) else
     updatedTodo <- Todo_findByIdAndUpdate now id updateData ;;
     match updatedTodo with
     | None => ret (fail_resp 404 not_found_msg)
     | Some t => ret (mkResponse 200 true (Some "Todo updated successfully") (One t) None None)
     end)
    (fun e => ret (err500 "Failed to update todo" e)).

(** DELETE /api/todos/:id *)
Definition delete_todo (id : string) : M response :=
  try_catch
    (if negb (isValid id) then ret (fail_resp 400 invalid_id_msg) else
     deletedTodo <- Todo_findByIdAndDelete id ;;
     match deletedTodo with
     | None => ret (fail_resp 404 not_found_msg)
     | Some t => ret (mkResponse 200 true (Some "Todo deleted successfully") (One t) None None)
     end)
    (fun e => ret (err500 "Failed to delete todo" e)).

(** ** Sample data *)

Definition w0 : world := mkWorld (mkStore [] 0) [].

Definition rep (n : nat) (c : ascii) : string := string_of_list_ascii (repeat c n).

Definition long_title : string := rep 101 "a"%char.

Definition oid0 : string := oid_of_N 0.

Example oid0_valid : isValid oid0 = true.
Proof. vm_compute. reflexivity. Qed.

Example trim_ex : trim "  Buy milk  " = "Buy milk".
Proof. vm_compute. reflexivity. Qed.

(** ** Lemmas on [trim] *)

Lemma drop_ws_length (l : list ascii) : (length (drop_ws l) <= length l)%nat.
Proof.
  induction l as [|c l IH]; simpl; [lia|].
  destruct (is_ws c); simpl; lia.
Qed.

Lemma drop_ws_fixed (c : ascii) (l : list ascii) :
  drop_ws (c :: l) = c :: l -> is_ws c = false.
Proof.
  simpl. destruct (is_ws c) eqn:E; [|reflexivity].
  intros H. pose proof (drop_ws_length l) as Hl. rewrite H in Hl. simpl in Hl. lia.
Qed.

Lemma drop_ws_idem (l : list ascii) : drop_ws (drop_ws l) = drop_ws l.
Proof.
  induction l as [|c l IH]; simpl; [reflexivity|].
  destruct (is_ws c) eqn:E; [exact IH|]. simpl. rewrite E. reflexivity.
Qed.

Lemma drop_ws_suffix (l : list ascii) : exists p, l = (p ++ drop_ws l)%list.
Proof.
  induction l as [|c l [p IH]]; simpl; [exists []; reflexivity|].
  destruct (is_ws c); [exists (c :: p); simpl; f_equal; exact IH | exists []; reflexivity].
Qed.

(** A prefix of a list with no leading whitespace has none either. *)
Lemma drop_ws_app_fixed (x y : list ascii) :
  drop_ws (x ++ y) = (x ++ y)%list -> drop_ws x = x.
Proof.
  destruct x as [|c x]; [reflexivity|].
  simpl app. intros H. apply drop_ws_fixed in H. simpl. rewrite H. reflexivity.
Qed.

Lemma trim_idem (s : string) : trim (trim s) = trim s.
Proof.
  unfold trim. rewrite list_ascii_of_string_of_list_ascii.
  set (A := drop_ws (list_ascii_of_string s)).
  set (B := drop_ws (rev A)).
  assert (HA : drop_ws A = A) by apply drop_ws_idem.
  assert (HB : drop_ws (rev B) = rev B).
  { destruct (drop_ws_suffix (rev A)) as [p Hp]. fold B in Hp.
    assert (A = (rev B ++ rev p)%list) as Heq.
    { rewrite <- rev_app_distr, <- Hp, rev_involutive. reflexivity. }
    rewrite Heq in HA. eapply drop_ws_app_fixed. exact HA. }
  rewrite HB, rev_involutive. unfold B at 1. rewrite drop_ws_idem. reflexivity.
Qed.

Lemma trim_empty_string : trim "" = "".
Proof. reflexivity. Qed.

Lemma trim_nonempty (s : string) : trim s <> "" -> s <> "".
Proof. intros H ->. apply H. reflexivity. Qed.

(** ** Claims *)

(** C1: a Get, Update or Delete request whose path id fails
    [ObjectId.isValid] is answered with the 400 "Invalid todo ID format"
    envelope, and the world (store and log of store calls) is untouched:
    no findById, findByIdAndUpdate or findByIdAndDelete call is made. *)
Theorem C1_invalid_id_no_store_call (now : Z) (id : string) (b : body) (w : world) :
  isValid id = false ->
  get_todo id w = (Ok (fail_resp 400 invalid_id_msg), w) /\
  put_todo now id b w = (Ok (fail_resp 400 invalid_id_msg), w) /\
  delete_todo id w = (Ok (fail_resp 400 invalid_id_msg), w).
Proof.
  intros H. unfold get_todo, put_todo, delete_todo, try_catch. rewrite H.
  repeat split.
Qed.

Lemma C1_witness :
  isValid "not-a-valid-id" = false /\
  get_todo "not-a-valid-id" w0 = (Ok (fail_resp 400 invalid_id_msg), w0) /\
  put_todo 0 "not-a-valid-id" [] w0 = (Ok (fail_resp 400 invalid_id_msg), w0) /\
  delete_todo "not-a-valid-id" w0 = (Ok (fail_resp 400 invalid_id_msg), w0).
Proof.
  split; [vm_compute; reflexivity|].
  apply (C1_invalid_id_no_store_call 0 "not-a-valid-id" [] w0). vm_compute. reflexivity.
Defined.

(** C4: a create whose title is absent, or a string that trims to "",
    is answered with the 400 "Title is required" envelope and leaves the
    world untouched: no save is attempted and no record is created. *)
Theorem C4_missing_or_blank_title (now : Z) (b : body) (w : world) :
  prop b "title" = JUndefined \/ (exists s, prop b "title" = JStr s /\ trim s = "") ->
  post_todo now b w = (Ok (fail_resp 400 title_required_msg), w).
Proof.
  intros H. unfold post_todo, try_catch.
  destruct H as [H | [s [H Hs]]]; rewrite H; [reflexivity|].
  simpl. destruct (String.eqb s "") eqn:E; [reflexivity|].
  simpl. rewrite Hs. reflexivity.
Qed.

Lemma C4_witness :
  post_todo 0 [("title", JStr "   ")] w0 = (Ok (fail_resp 400 title_required_msg), w0).
Proof.
  apply C4_missing_or_blank_title. right. exists "   ". split; reflexivity.
Defined.

(** C5: an update with a valid id whose body has none of [title],
    [description], [completed] is answered with the 400 "At least one
    field ..." envelope and leaves the world untouched: no store call. *)
Theorem C5_empty_update_rejected (now : Z) (id : string) (b : body) (w : world) :
  isValid id = true ->
  prop b "title" = JUndefined -> prop b "description" = JUndefined ->
  prop b "completed" = JUndefined ->
  put_todo now id b w = (Ok (fail_resp 400 no_field_msg), w).
Proof.
  intros Hid Ht Hd Hc. unfold put_todo, try_catch.
  rewrite Hid, Ht, Hd, Hc. reflexivity.
Qed.

Lemma C5_witness :
  put_todo 0 oid0 [] w0 = (Ok (fail_resp 400 no_field_msg), w0).
Proof. apply C5_empty_update_rejected; vm_compute; reflexivity. Defined.

(** ** Create: the save primitive and the title check *)

Definition description_well_typed (v : jsval) : bool :=
  match v with JUndefined | JNull | JStr _ => true | _ => false end.

(** The description accepted by the schema: absent, null, or at most 500
    characters once trimmed. *)
Definition description_ok (v : jsval) : bool :=
  match v with
  | JUndefined | JNull => true
  | JStr d => (String.length (trim d) <=? 500)%nat
  | _ => false
  end.

Lemma new_save_ok (now : Z) (t : string) (d : jsval) (w : world) :
  trim t <> "" -> (String.length (trim t) <= 100)%nat ->
  validate_description (match d with JStr s => Some (trim s) | _ => None end) = None ->
  Todo_new_save now t d w =
    let doc := mkTodo (oid_of_N (next_oid (st w))) (trim t)
                      (match d with JStr s => Some (trim s) | _ => None end)
                      (Some false) now now in
    (Ok doc, mkWorld (mkStore (docs (st w) ++ [doc]) (N.succ (next_oid (st w))))
                     (calls w ++ [CallSave])).
Proof.
  intros Hne Hle Hd. unfold Todo_new_save, bind, log_call, get_store, put_store, ret.
  simpl. unfold validate_title.
  destruct (String.length (trim t) =? 0)%nat eqn:E0.
  { apply Nat.eqb_eq in E0. destruct (trim t); [contradiction|discriminate]. }
  destruct (100 <? String.length (trim t))%nat eqn:E1; [apply Nat.ltb_lt in E1; lia|].
  rewrite Hd. reflexivity.
Qed.

Lemma new_save_result (now : Z) (t : string) (d : jsval) (w : world) (doc : todo) (w' : world) :
  Todo_new_save now t d w = (Ok doc, w') ->
  doc = mkTodo (oid_of_N (next_oid (st w))) (trim t)
               (match d with JStr s => Some (trim s) | _ => None end)
               (Some false) now now /\
  w' = mkWorld (mkStore (docs (st w) ++ [doc]) (N.succ (next_oid (st w))))
               (calls w ++ [CallSave]).
Proof.
  unfold Todo_new_save, bind, log_call, get_store, put_store, ret, throw. simpl.
  destruct (validate_title (trim t)); [intros H; discriminate H|].
  destruct (validate_description _); [intros H; discriminate H|].
  intros H. inversion H. subst. split; reflexivity.
Qed.

Lemma new_save_thrown (now : Z) (t : string) (d : jsval) (w : world) (e : fault) (w' : world) :
  Todo_new_save now t d w = (Thrown e, w') -> st w' = st w.
Proof.
  unfold Todo_new_save, bind, log_call, get_store, put_store, ret, throw. simpl.
  destruct (validate_title (trim t)); [intros H; inversion H; reflexivity|].
  destruct (validate_description _); [intros H; inversion H; reflexivity|].
  intros H; discriminate H.
Qed.

Arguments Todo_new_save : simpl never.
Arguments Todo_findByIdAndUpdate : simpl never.

(** Running the route up to the save, for a string title that passes the
    route's own check and a description of a JSON-compatible type. *)
Lemma post_reaches_save (now : Z) (b : body) (w : world) (s : string) :
  prop b "title" = JStr s -> trim s <> "" ->
  description_well_typed (prop b "description") = true ->
  post_todo now b w =
    try_catch
      (savedTodo <- Todo_new_save now (trim s)
                     (match prop b "description" with
                      | JStr d => if String.eqb (trim d) "" then JUndefined else JStr (trim d)
                      | _ => JUndefined
                      end) ;;
       ret (mkResponse 201 true (Some "Todo created successfully") (One savedTodo) None None))
      (fun e => ret (err500 "Failed to create todo" e)) w.
Proof.
  intros Ht Hne Hd. unfold post_todo, try_catch, trim_js. rewrite Ht.
  pose proof (trim_nonempty s Hne) as Hs.
  apply String.eqb_neq in Hs, Hne. cbv [bind ret truthy negb]. rewrite Hs, Hne.
  destruct (prop b "description"); try discriminate Hd; reflexivity.
Qed.

(** ** Create: schema validation failures *)

Lemma validate_title_err (t : string) (e : fault) :
  validate_title t = Some e -> exists p rule, e = ValidationError p rule.
Proof.
  unfold validate_title. destruct (String.length t =? 0)%nat; [intros H; inversion H; eauto|].
  destruct (100 <? String.length t)%nat; intros H; inversion H; eauto.
Qed.

Lemma validate_description_err (d : option string) (e : fault) :
  validate_description d = Some e -> exists p rule, e = ValidationError p rule.
Proof.
  unfold validate_description. destruct d as [s|]; [|intros H; discriminate H].
  destruct (500 <? String.length s)%nat; intros H; inversion H; eauto.
Qed.

Lemma new_save_invalid (now : Z) (t : string) (d : jsval) (w : world) :
  validate_title (trim t) <> None \/
  validate_description (match d with JStr s => Some (trim s) | _ => None end) <> None ->
  exists p rule,
    Todo_new_save now t d w =
      (Thrown (ValidationError p rule), mkWorld (st w) (calls w ++ [CallSave])).
Proof.
  intros H. unfold Todo_new_save, bind, log_call. simpl.
  destruct (validate_title (trim t)) as [e|] eqn:E1.
  - destruct (validate_title_err _ _ E1) as (p & rl & ->). exists p, rl. reflexivity.
  - destruct (validate_description _) as [e|] eqn:E2.
    + destruct (validate_description_err _ _ E2) as (p & rl & ->). exists p, rl. reflexivity.
    + destruct H; contradiction.
Qed.

(** A create that reaches the save with a title or a description the
    schema rejects is answered with 500 and stores nothing. *)
Lemma post_schema_invalid (now : Z) (b : body) (w : world) (s : string) :
  prop b "title" = JStr s -> trim s <> "" ->
  description_well_typed (prop b "description") = true ->
  (validate_title (trim s) <> None \/
   exists d, prop b "description" = JStr d /\ validate_description (Some (trim d)) <> None) ->
  exists p rule,
    post_todo now b w =
      (Ok (err500 "Failed to create todo" (ValidationError p rule)),
       mkWorld (st w) (calls w ++ [CallSave])).
Proof.
  intros Ht Hne Hwt Hinv. rewrite (post_reaches_save now b w s Ht Hne Hwt).
  edestruct (new_save_invalid now (trim s)
               (match prop b "description" with
                | JStr d => if String.eqb (trim d) "" then JUndefined else JStr (trim d)
                | _ => JUndefined
                end) w) as (p & rl & E).
  { rewrite trim_idem. destruct Hinv as [Hinv | (d & Hd & Hinv)]; [left; exact Hinv|right].
    rewrite Hd. destruct (String.eqb (trim d) "") eqn:Eb.
    - apply String.eqb_eq in Eb. rewrite Eb in Hinv. exfalso. apply Hinv. reflexivity.
    - simpl. rewrite trim_idem. exact Hinv. }
  exists p, rl. unfold try_catch, bind. rewrite E. reflexivity.
Qed.

(** ** Update: a title-only body *)

Lemma put_blank_title (now : Z) (id : string) (s : string) (w : world) :
  isValid id = true -> trim s = "" ->
  put_todo now id [("title", JStr s)] w =
    (Ok (err500 "Failed to update todo" (ValidationError "title" "required")),
     mkWorld (st w) (calls w ++ [CallFindByIdAndUpdate id])).
Proof.
  intros Hid Hs. unfold put_todo, try_catch, build_update, trim_js.
  cbv [bind ret prop jsval_eqb]. simpl String.eqb. cbv iota beta. rewrite Hid. simpl.
  unfold Todo_findByIdAndUpdate, cast_oid, bind, log_call, throw. rewrite Hid. simpl.
  rewrite trim_idem, Hs. reflexivity.
Qed.

(** C2 does not hold as stated: a create whose trimmed title has 101
    characters is a schema validation failure answered with 500. *)
Lemma C2_counterexample :
  fst (post_todo 0 [("title", JStr long_title)] w0) =
    Ok (err500 "Failed to create todo" (ValidationError "title" "maxlength")).
Proof. vm_compute. reflexivity. Qed.

(** C3 (as amended): consider a create whose title is a string that is
    non-empty after trimming and whose description is absent, null or a
    string.  If the trimmed title has at most 100 characters and the
    description is absent, null, or at most 500 characters after trimming,
    the create is answered with 201; the record stored and returned has the
    trimmed title, [completed = false] and [createdAt = updatedAt]; a
    description that is absent, null or blank after trimming is left unset,
    any other one is stored trimmed.  If the trimmed title is longer than
    100 characters or the trimmed description longer than 500, schema
    validation fails: the create is answered with 500 "Failed to create
    todo" and nothing is stored. *)
Theorem C3_valid_create (now : Z) (b : body) (w : world) (s : string) :
  prop b "title" = JStr s -> trim s <> "" ->
  description_well_typed (prop b "description") = true ->
  ((String.length (trim s) <= 100)%nat -> description_ok (prop b "description") = true ->
   exists t,
     post_todo now b w =
       (Ok (mkResponse 201 true (Some "Todo created successfully") (One t) None None),
        mkWorld (mkStore (docs (st w) ++ [t]) (N.succ (next_oid (st w))))
                (calls w ++ [CallSave])) /\
     title t = trim s /\ completed t = Some false /\ createdAt t = updatedAt t /\
     ((prop b "description" = JUndefined \/ prop b "description" = JNull \/
       exists d, prop b "description" = JStr d /\ trim d = "") -> description t = None) /\
     (forall d, prop b "description" = JStr d -> trim d <> "" ->
                description t = Some (trim d))) /\
  ((100 < String.length (trim s))%nat \/
   (exists d, prop b "description" = JStr d /\ (500 < String.length (trim d))%nat) ->
   exists p rule,
     post_todo now b w =
       (Ok (err500 "Failed to create todo" (ValidationError p rule)),
        mkWorld (st w) (calls w ++ [CallSave]))).
Proof.
  intros Ht Hne Hwt. split.
  - intros Hle Hd.
    rewrite (post_reaches_save now b w s Ht Hne Hwt).
    assert (Hs : validate_description
                   (match (match prop b "description" with
                           | JStr d => if String.eqb (trim d) "" then JUndefined else JStr (trim d)
                           | _ => JUndefined end) with
                    | JStr d => Some (trim d) | _ => None end) = None).
    { destruct (prop b "description"); try reflexivity.
      destruct (String.eqb (trim s0) ""); [reflexivity|].
      simpl. rewrite trim_idem. simpl in Hd. apply Nat.leb_le in Hd.
      destruct (500 <? String.length (trim s0))%nat eqn:E; [apply Nat.ltb_lt in E; lia|reflexivity]. }
    unfold try_catch, bind.
    rewrite new_save_ok by (rewrite ?trim_idem; assumption).
    eexists. split; [reflexivity|].
    simpl. rewrite trim_idem. repeat split; try reflexivity.
    + intros [H | [H | [d [H Hb]]]]; rewrite H; [reflexivity|reflexivity|].
      rewrite Hb. reflexivity.
    + intros d H Hb. rewrite H. apply String.eqb_neq in Hb. rewrite Hb. simpl.
      rewrite trim_idem. reflexivity.
  - intros Hlong. apply (post_schema_invalid now b w s Ht Hne Hwt).
    destruct Hlong as [Hl | (d & Hd & Hl)]; [left | right].
    + unfold validate_title. destruct (String.length (trim s) =? 0)%nat; [discriminate|].
      apply Nat.ltb_lt in Hl. rewrite Hl. discriminate.
    + exists d. split; [exact Hd|]. unfold validate_description.
      apply Nat.ltb_lt in Hl. rewrite Hl. discriminate.
Qed.

Lemma C3_witness :
  (exists t,
     post_todo 5 [("title", JStr " Buy milk ")] w0 =
       (Ok (mkResponse 201 true (Some "Todo created successfully") (One t) None None),
        mkWorld (mkStore (docs (st w0) ++ [t]) (N.succ (next_oid (st w0))))
                (calls w0 ++ [CallSave])) /\
     title t = trim " Buy milk " /\ completed t = Some false /\ createdAt t = updatedAt t /\
     ((prop [("title", JStr " Buy milk ")] "description" = JUndefined \/
       prop [("title", JStr " Buy milk ")] "description" = JNull \/
       exists d, prop [("title", JStr " Buy milk ")] "description" = JStr d /\ trim d = "") ->
      description t = None) /\
     (forall d, prop [("title", JStr " Buy milk ")] "description" = JStr d -> trim d <> "" ->
                description t = Some (trim d))) /\
  (exists p rule,
     post_todo 0 [("title", JStr "a"); ("description", JStr (rep 501 "b"%char))] w0 =
       (Ok (err500 "Failed to create todo" (ValidationError p rule)),
        mkWorld (st w0) (calls w0 ++ [CallSave]))).
Proof.
  split.
  - apply (C3_valid_create 5 [("title", JStr " Buy milk ")] w0 " Buy milk ");
      vm_compute; first [reflexivity | lia | discriminate].
  - apply (C3_valid_create 0 [("title", JStr "a"); ("description", JStr (rep 501 "b"%char))]
             w0 "a"); try (vm_compute; first [reflexivity | discriminate]).
    right. exists (rep 501 "b"%char). split; [reflexivity|]. vm_compute. lia.
Defined.

(** C3 does not hold as stated: a create with a valid title but a
    501-character description fails schema validation and gets 500. *)
Lemma C3_counterexample :
  fst (post_todo 0 [("title", JStr "a"); ("description", JStr (rep 501 "b"%char))] w0) =
    Ok (err500 "Failed to create todo" (ValidationError "description" "maxlength")).
Proof. vm_compute. reflexivity. Qed.

(** C10: the create route reads only [title] and [description] from the
    body.  Whatever else the body holds ([completed], [_id], timestamps),
    a successful create (201) returns and stores a record with
    [completed = false], the store's next fresh id, and both timestamps
    set by the store to the time of the request. *)
Theorem C10_create_ignores_other_fields (now : Z) (b : body) (w : world)
    (r : response) (w' : world) :
  post_todo now b w = (Ok r, w') -> status r = 201%Z ->
  exists t,
    data r = One t /\ completed t = Some false /\
    todo_id t = oid_of_N (next_oid (st w)) /\ createdAt t = now /\ updatedAt t = now /\
    st w' = mkStore (docs (st w) ++ [t]) (N.succ (next_oid (st w))).
Proof.
  intros H Hst. unfold post_todo, try_catch, trim_js, trim_or_undefined in H.
  cbv [bind ret throw] in H.
  destruct (prop b "title") as [| | [] | z | s |]; simpl in H;
    [inversion H; subst; discriminate Hst ..| | | ].
  all: swap 1 3.
  all: try (destruct (Z.eqb z 0); simpl in H; inversion H; subst; discriminate Hst).
  all: try (inversion H; subst; discriminate Hst).
  destruct (String.eqb s ""); simpl in H; [inversion H; subst; discriminate Hst|].
  destruct (String.eqb (trim s) ""); simpl in H; [inversion H; subst; discriminate Hst|].
  destruct (prop b "description"); simpl in H;
    try (inversion H; subst; discriminate Hst);
    try destruct (String.eqb (trim s0) "");
    destruct (Todo_new_save _ _ _ _) as [[a|f] w2] eqn:E;
    inversion H; subst; try discriminate Hst;
    apply new_save_result in E; destruct E as [-> ->];
    eexists; repeat split; reflexivity.
Qed.

Lemma C10_witness :
  post_todo 5 [("title", JStr "Buy milk"); ("completed", JBool true);
               ("_id", JStr "ffffffffffffffffffffffff"); ("createdAt", JNum 1)] w0 =
    (Ok (mkResponse 201 true (Some "Todo created successfully")
           (One (mkTodo (oid_of_N 0) "Buy milk" None (Some false) 5 5)) None None),
     mkWorld (mkStore [mkTodo (oid_of_N 0) "Buy milk" None (Some false) 5 5] 1) [CallSave]) /\
  exists t,
    One (mkTodo (oid_of_N 0) "Buy milk" None (Some false) 5 5) = One t /\
    completed t = Some false /\ todo_id t = oid_of_N (next_oid (st w0)) /\
    createdAt t = 5%Z /\ updatedAt t = 5%Z /\
    st (mkWorld (mkStore [mkTodo (oid_of_N 0) "Buy milk" None (Some false) 5 5] 1) [CallSave])
    = mkStore (docs (st w0) ++ [t]) (N.succ (next_oid (st w0))).
Proof.
  assert (E : post_todo 5 [("title", JStr "Buy milk"); ("completed", JBool true);
               ("_id", JStr "ffffffffffffffffffffffff"); ("createdAt", JNum 1)] w0 =
    (Ok (mkResponse 201 true (Some "Todo created successfully")
           (One (mkTodo (oid_of_N 0) "Buy milk" None (Some false) 5 5)) None None),
     mkWorld (mkStore [mkTodo (oid_of_N 0) "Buy milk" None (Some false) 5 5] 1) [CallSave]))
    by (vm_compute; reflexivity).
  split; [exact E|].
  exact (C10_create_ignores_other_fields 5 _ w0 _ _ E eq_refl).
Defined.

(** C6: the "at least one field" check counts keys of the update object
    built from the body, so a title that is present but blank counts as a
    field: an update whose only field is a blank title is not rejected with
    the "At least one field ..." message; it reaches findByIdAndUpdate,
    whose update validators reject the empty title (500). *)
Theorem C6_blank_title_counts_as_field (now : Z) (id s : string) (w : world) :
  isValid id = true -> trim s = "" ->
  exists r w',
    put_todo now id [("title", JStr s)] w = (Ok r, w') /\
    message r <> Some no_field_msg /\
    calls w' = (calls w ++ [CallFindByIdAndUpdate id])%list.
Proof.
  intros Hid Hs. rewrite put_blank_title by assumption.
  eexists _, _. split; [reflexivity|]. split; [|reflexivity].
  simpl. intros H. inversion H.
Qed.

Lemma C6_witness :
  exists r w',
    put_todo 0 oid0 [("title", JStr "")] w0 = (Ok r, w') /\
    message r <> Some no_field_msg /\
    calls w' = (calls w0 ++ [CallFindByIdAndUpdate oid0])%list.
Proof. apply C6_blank_title_counts_as_field; vm_compute; reflexivity. Defined.

(** A store holding one record created at time 5 with a description. *)
Definition w_old : world :=
  snd (post_todo 5 [("title", JStr "Buy milk"); ("description", JStr "old")] w0).

(** C7: an update of an existing record with a description that trims to
    "" sets [updateData.description = undefined]; Mongoose strips the
    undefined key, so the stored description is kept, not unset. *)
Theorem C7_blank_description_kept :
  put_todo 7 oid0 [("description", JStr "   ")] w_old =
    (Ok (mkResponse 200 true (Some "Todo updated successfully")
           (One (mkTodo oid0 "Buy milk" (Some "old") (Some false) 5 7)) None None),
     mkWorld (mkStore [mkTodo oid0 "Buy milk" (Some "old") (Some false) 5 7] 1)
             [CallSave; CallFindByIdAndUpdate oid0]).
Proof. vm_compute. reflexivity. Qed.

(** ** List *)

#[global] Instance newer_or_same_total : Total newer_or_same.
Proof. intros a b. unfold newer_or_same. lia. Qed.

#[global] Instance newer_or_same_trans : Transitive newer_or_same.
Proof. intros a b c. unfold newer_or_same. lia. Qed.

(** C9: for every store, List answers 200 with every stored record, each
    exactly once, ordered newest [createdAt] first (every record precedes
    only records created at the same time or earlier), and [count] is the
    length of [data]; the store is only read. *)
Theorem C9_list_all_newest_first (w : world) :
  exists l,
    get_todos w =
      (Ok (mkResponse 200 true None (Many l) (Some (length l)) None),
       mkWorld (st w) (calls w ++ [CallFind])) /\
    l ≡ₚ docs (st w) /\ StronglySorted newer_or_same l.
Proof.
  exists (merge_sort newer_or_same (docs (st w))). split; [reflexivity|]. split.
  - apply merge_sort_Permutation.
  - apply StronglySorted_merge_sort; typeclasses eauto.
Qed.

(** ** Update: the frame of a successful update *)

Lemma build_update_cast (t d c : jsval) (w : world) (upd : body) (w' : world)
    (u : todo_update) :
  build_update t d c w = (Ok upd, w') -> cast_update upd empty_update = Ok u ->
  w' = w /\
  (t = JUndefined -> u_title u = None) /\
  (forall s, t = JStr s -> u_title u = Some (trim s)) /\
  (d = JUndefined -> u_description u = None) /\
  (forall s, d = JStr s -> trim s <> "" -> u_description u = Some (trim s)) /\
  (c = JUndefined -> u_completed u = None) /\
  (forall x, c = JBool x -> u_completed u = Some (Some x)).
Proof.
  unfold build_update, trim_js, trim_or_undefined. cbv [bind ret throw].
  intros H Hu.
  destruct t; try discriminate H;
  destruct d; try discriminate H;
  repeat match type of H with
         | context [String.eqb ?a ""] => destruct (String.eqb a "") eqn:?
         end;
  destruct c; inversion H; subst; clear H; simpl in Hu;
  rewrite ?trim_idem in Hu;
  repeat match type of Hu with
         | context [match ?x with _ => _ end] => destruct x eqn:?
         end;
  inversion Hu; subst; clear Hu;
  repeat split; simpl; intros; try discriminate;
  repeat match goal with
         | E : JStr _ = JStr _ |- _ => inversion E; subst; clear E
         | E : JBool _ = JBool _ |- _ => inversion E; subst; clear E
         end;
  rewrite ?trim_idem; try reflexivity;
  try (apply String.eqb_neq in H0; congruence).
Qed.

Lemma findByIdAndUpdate_some (now : Z) (id : string) (upd : body) (w : world)
    (d' : todo) (w' : world) :
  Todo_findByIdAndUpdate now id upd w = (Ok (Some d'), w') ->
  exists oid u old,
    cast_oid id = Some oid /\ cast_update upd empty_update = Ok u /\
    find_doc oid (docs (st w)) = Some old /\ d' = apply_update now u old.
Proof.
  unfold Todo_findByIdAndUpdate, log_call, get_store, put_store.
  cbv [bind ret throw]. simpl.
  destruct (cast_oid id) as [oid|] eqn:Eo; [|intros H; discriminate H].
  destruct (cast_update upd empty_update) as [u|e] eqn:Eu; [|intros H; discriminate H].
  destruct (validate_update u); [intros H; discriminate H|].
  intros H. simpl in H.
  destruct (find_doc oid (docs (st w))) as [old|] eqn:E; inversion H; subst.
  exists oid, u, old. repeat split; assumption.
Qed.

(** C8 (as amended): a successful update (200) returns the record stored
    under the path id with its id and [createdAt] kept; [title] and
    [completed] are overwritten only when the body sets them, [description]
    is kept when the body has none and overwritten by a non-blank one;
    [updatedAt] becomes the time of the update, so it strictly increases
    when that time is later than the previous [updatedAt]. *)
Theorem C8_update_frame (now : Z) (id : string) (b : body) (w : world)
    (r : response) (w' : world) :
  put_todo now id b w = (Ok r, w') -> status r = 200%Z ->
  exists oid old new,
    cast_oid id = Some oid /\ find_doc oid (docs (st w)) = Some old /\
    data r = One new /\
    todo_id new = todo_id old /\ createdAt new = createdAt old /\ updatedAt new = now /\
    (prop b "title" = JUndefined -> title new = title old) /\
    (forall s, prop b "title" = JStr s -> title new = trim s) /\
    (prop b "description" = JUndefined -> description new = description old) /\
    (forall d, prop b "description" = JStr d -> trim d <> "" ->
               description new = Some (trim d)) /\
    (prop b "completed" = JUndefined -> completed new = completed old) /\
    (forall c, prop b "completed" = JBool c -> completed new = Some c) /\
    ((updatedAt old < now)%Z -> (updatedAt old < updatedAt new)%Z).
Proof.
  intros H Hst. unfold put_todo, try_catch in H. cbv [bind ret throw] in H.
  destruct (isValid id); simpl in H; [|inversion H; subst; discriminate Hst].
  destruct (build_update _ _ _ w) as [[upd|f] w1] eqn:Hb;
    [|inversion H; subst; discriminate Hst].
  destruct (length upd =? 0)%nat; [inversion H; subst; discriminate Hst|].
  destruct (Todo_findByIdAndUpdate now id upd w1) as [[[new|]|f] w2] eqn:Hf;
    inversion H; subst; try discriminate Hst.
  apply findByIdAndUpdate_some in Hf.
  destruct Hf as (oid & u & old & Hoid & Hu & Hold & ->).
  destruct (build_update_cast _ _ _ _ _ _ _ Hb Hu)
    as (-> & Ht1 & Ht2 & Hd1 & Hd2 & Hc1 & Hc2).
  exists oid, old, (apply_update now u old).
  unfold apply_update; simpl.
  repeat split; try assumption; try reflexivity.
  - intros E. rewrite (Ht1 E). reflexivity.
  - intros s E. rewrite (Ht2 s E). reflexivity.
  - intros E. rewrite (Hd1 E). reflexivity.
  - intros d E Hne. rewrite (Hd2 d E Hne). reflexivity.
  - intros E. rewrite (Hc1 E). reflexivity.
  - intros c E. rewrite (Hc2 c E). reflexivity.
  - intros Hlt. exact Hlt.
Qed.

Definition w_created : world := snd (post_todo 5 [("title", JStr "Buy milk")] w0).

Lemma C8_witness :
  exists oid old new,
    cast_oid oid0 = Some oid /\ find_doc oid (docs (st w_created)) = Some old /\
    data (mkResponse 200 true (Some "Todo updated successfully")
            (One (mkTodo oid0 "Buy milk" None (Some true) 5 9)) None None) = One new /\
    todo_id new = todo_id old /\ createdAt new = createdAt old /\ updatedAt new = 9%Z /\
    (prop [("completed", JBool true)] "title" = JUndefined -> title new = title old) /\
    (forall s, prop [("completed", JBool true)] "title" = JStr s -> title new = trim s) /\
    (prop [("completed", JBool true)] "description" = JUndefined ->
     description new = description old) /\
    (forall d, prop [("completed", JBool true)] "description" = JStr d -> trim d <> "" ->
               description new = Some (trim d)) /\
    (prop [("completed", JBool true)] "completed" = JUndefined ->
     completed new = completed old) /\
    (forall c, prop [("completed", JBool true)] "completed" = JBool c ->
               completed new = Some c) /\
    ((updatedAt old < 9)%Z -> (updatedAt old < updatedAt new)%Z).
Proof.
  apply (C8_update_frame 9 oid0 [("completed", JBool true)] w_created _
           (snd (put_todo 9 oid0 [("completed", JBool true)] w_created)));
    vm_compute; reflexivity.
Defined.

(** C8 does not hold as stated: a completed-only update made in the same
    millisecond as the record's creation leaves [updatedAt] equal to its
    previous value (5), it does not strictly increase. *)
Lemma C8_counterexample :
  find_doc oid0 (docs (st w_created)) = Some (mkTodo oid0 "Buy milk" None (Some false) 5 5) /\
  fst (put_todo 5 oid0 [("completed", JBool true)] w_created) =
    Ok (mkResponse 200 true (Some "Todo updated successfully")
          (One (mkTodo oid0 "Buy milk" None (Some true) 5 5)) None None).
Proof. split; vm_compute; reflexivity. Qed.

(** A store holding two records, created at times 5 and 6. *)
Definition w_two : world := snd (post_todo 6 [("title", JStr "Walk dog")] w_created).

Lemma C9_witness :
  fst (get_todos w_two) =
    Ok (mkResponse 200 true None
          (Many [mkTodo (oid_of_N 1) "Walk dog" None (Some false) 6 6;
                 mkTodo oid0 "Buy milk" None (Some false) 5 5]) (Some 2%nat) None) /\
  exists l,
    get_todos w_two =
      (Ok (mkResponse 200 true None (Many l) (Some (length l)) None),
       mkWorld (st w_two) (calls w_two ++ [CallFind])) /\
    l ≡ₚ docs (st w_two) /\ StronglySorted newer_or_same l.
Proof.
  split; [vm_compute; reflexivity|].
  exact (C9_list_all_newest_first w_two).
Defined.

(** ** Store-generated identifiers *)

Lemma length_string_of_list (l : list ascii) :
  String.length (string_of_list_ascii l) = length l.
Proof. induction l as [|c l IH]; simpl; [reflexivity|]. rewrite IH. reflexivity. Qed.

Definition oid_char (c : ascii) : Prop := is_hex c = true /\ lower c = c.

Lemma hex_digit_oid_char (m : N) : (m < 16)%N -> oid_char (hex_digit m).
Proof.
  intros H.
  assert (m = 0 \/ m = 1 \/ m = 2 \/ m = 3 \/ m = 4 \/ m = 5 \/ m = 6 \/ m = 7 \/
          m = 8 \/ m = 9 \/ m = 10 \/ m = 11 \/ m = 12 \/ m = 13 \/ m = 14 \/ m = 15)%N
    as Hm by lia.
  repeat destruct Hm as [-> | Hm]; subst; split; vm_compute; reflexivity.
Qed.

Lemma hex_digits_shape (k : nat) (n : N) (acc : list ascii) :
  length (hex_digits k n acc) = (k + length acc)%nat /\
  (Forall oid_char acc -> Forall oid_char (hex_digits k n acc)).
Proof.
  revert n acc. induction k as [|k IH]; intros n acc; simpl; [split; auto|].
  destruct (IH (n / 16)%N (hex_digit (n mod 16)%N :: acc)) as [Hl Hf].
  split.
  - rewrite Hl. simpl. lia.
  - intros Hacc. apply Hf. constructor; [|exact Hacc].
    apply hex_digit_oid_char. apply N.mod_lt. lia.
Qed.

Lemma map_lower_id (l : list ascii) : Forall oid_char l -> map lower l = l.
Proof.
  induction 1 as [|c l [_ Hc] _ IH]; simpl; [reflexivity|]. rewrite Hc, IH. reflexivity.
Qed.

Lemma forallb_is_hex (l : list ascii) : Forall oid_char l -> forallb is_hex l = true.
Proof.
  induction 1 as [|c l [Hc _] _ IH]; simpl; [reflexivity|]. rewrite Hc, IH. reflexivity.
Qed.

(** Every id the store generates is a well-formed, canonical ObjectId. *)
Lemma cast_oid_of_N (n : N) : cast_oid (oid_of_N n) = Some (oid_of_N n).
Proof.
  destruct (hex_digits_shape 24 n []) as [Hl Hf].
  specialize (Hf ltac:(constructor)).
  unfold cast_oid, isValid, oid_of_N.
  rewrite list_ascii_of_string_of_list_ascii, length_string_of_list, Hl,
          forallb_is_hex, map_lower_id by exact Hf.
  reflexivity.
Qed.

Lemma cast_oid_valid (id oid : string) : cast_oid id = Some oid -> isValid id = true.
Proof. unfold cast_oid. destruct (isValid id); [reflexivity|discriminate]. Qed.

Lemma find_doc_app_fresh (oid : string) (l : list todo) (t : todo) :
  find_doc oid l = None -> todo_id t = oid -> find_doc oid (l ++ [t]) = Some t.
Proof.
  unfold find_doc. induction l as [|x l IH]; simpl; intros Hn Ht.
  - rewrite Ht, String.eqb_refl. reflexivity.
  - destruct (String.eqb (todo_id x) oid); [discriminate Hn|]. exact (IH Hn Ht).
Qed.

Lemma find_doc_filter_removed (oid : string) (l : list todo) :
  find_doc oid (List.filter (fun x => negb (String.eqb (todo_id x) oid)) l) = None.
Proof.
  unfold find_doc. induction l as [|x l IH]; simpl; [reflexivity|].
  destruct (String.eqb (todo_id x) oid) eqn:E; simpl; [exact IH|]. rewrite E. exact IH.
Qed.

(** ** Get and Delete, by the outcome of the lookup *)

Lemma get_todo_lookup (id oid : string) (w : world) :
  cast_oid id = Some oid ->
  get_todo id w =
    (Ok (match find_doc oid (docs (st w)) with
         | None => fail_resp 404 not_found_msg
         | Some t => mkResponse 200 true None (One t) None None
         end),
     mkWorld (st w) (calls w ++ [CallFindById id])).
Proof.
  intros Hc. pose proof (cast_oid_valid _ _ Hc) as Hv.
  unfold get_todo, try_catch, Todo_findById, log_call, get_store.
  cbv [bind ret throw]. rewrite Hv. simpl. rewrite Hc. simpl.
  destruct (find_doc oid (docs (st w))); reflexivity.
Qed.

Lemma delete_todo_lookup (id oid : string) (w : world) :
  cast_oid id = Some oid ->
  delete_todo id w =
    match find_doc oid (docs (st w)) with
    | None => (Ok (fail_resp 404 not_found_msg),
               mkWorld (st w) (calls w ++ [CallFindByIdAndDelete id]))
    | Some d =>
        (Ok (mkResponse 200 true (Some "Todo deleted successfully") (One d) None None),
         mkWorld (mkStore (List.filter (fun x => negb (String.eqb (todo_id x) oid)) (docs (st w)))
                          (next_oid (st w)))
                 (calls w ++ [CallFindByIdAndDelete id]))
    end.
Proof.
  intros Hc. pose proof (cast_oid_valid _ _ Hc) as Hv.
  unfold delete_todo, try_catch, Todo_findByIdAndDelete, log_call, get_store, put_store.
  cbv [bind ret throw]. rewrite Hv. simpl. rewrite Hc. simpl.
  destruct (find_doc oid (docs (st w))); reflexivity.
Qed.

(** ** The effect of a successful create *)

Lemma post_201_effect (now : Z) (b : body) (w : world) (r : response) (w' : world) :
  post_todo now b w = (Ok r, w') -> status r = 201%Z ->
  exists t,
    data r = One t /\ todo_id t = oid_of_N (next_oid (st w)) /\
    st w' = mkStore (docs (st w) ++ [t]) (N.succ (next_oid (st w))).
Proof.
  intros H Hst. unfold post_todo, try_catch, trim_js, trim_or_undefined in H.
  cbv [bind ret throw] in H.
  destruct (prop b "title") as [| | [] | z | s |]; simpl in H;
    [inversion H; subst; discriminate Hst ..| | | ].
  all: swap 1 3.
  all: try (destruct (Z.eqb z 0); simpl in H; inversion H; subst; discriminate Hst).
  all: try (inversion H; subst; discriminate Hst).
  destruct (String.eqb s ""); simpl in H; [inversion H; subst; discriminate Hst|].
  destruct (String.eqb (trim s) ""); simpl in H; [inversion H; subst; discriminate Hst|].
  destruct (prop b "description"); simpl in H;
    try (inversion H; subst; discriminate Hst);
    try destruct (String.eqb (trim s0) "");
    destruct (Todo_new_save _ _ _ _) as [[a|f] w2] eqn:E;
    inversion H; subst; try discriminate Hst;
    apply new_save_result in E; destruct E as [-> ->];
    eexists; repeat split; reflexivity.
Qed.

(** X1: a record just created can be read back: after a create answered
    with 201, a Get on the returned record's id answers 200 with that same
    record, provided the id the store generated was not already in use. *)
Theorem X1_create_then_get (now : Z) (b : body) (w : world) (r : response) (w' : world) :
  post_todo now b w = (Ok r, w') -> status r = 201%Z ->
  find_doc (oid_of_N (next_oid (st w))) (docs (st w)) = None ->
  exists t, data r = One t /\
    fst (get_todo (todo_id t) w') = Ok (mkResponse 200 true None (One t) None None).
Proof.
  intros H Hst Hfresh.
  destruct (post_201_effect _ _ _ _ _ H Hst) as (t & Hd & Hid & Hw').
  exists t. split; [exact Hd|].
  rewrite Hid, (get_todo_lookup _ _ _ (cast_oid_of_N _)), Hw'. simpl.
  rewrite (find_doc_app_fresh _ _ _ Hfresh Hid). reflexivity.
Qed.

Lemma X1_witness :
  exists t,
    data (mkResponse 201 true (Some "Todo created successfully")
            (One (mkTodo oid0 "Buy milk" None (Some false) 5 5)) None None) = One t /\
    fst (get_todo (todo_id t) w_created) = Ok (mkResponse 200 true None (One t) None None).
Proof.
  apply (X1_create_then_get 5 [("title", JStr "Buy milk")] w0);
    vm_compute; reflexivity.
Defined.

(** X2: Delete removes the record: deleting a stored record answers 200
    with that record; afterwards both a second Delete and a Get of the
    same id answer 404. *)
Theorem X2_delete_twice (id oid : string) (d : todo) (w : world) :
  cast_oid id = Some oid -> find_doc oid (docs (st w)) = Some d ->
  exists w',
    delete_todo id w =
      (Ok (mkResponse 200 true (Some "Todo deleted successfully") (One d) None None), w') /\
    fst (delete_todo id w') = Ok (fail_resp 404 not_found_msg) /\
    fst (get_todo id w') = Ok (fail_resp 404 not_found_msg).
Proof.
  intros Hc Hf. rewrite (delete_todo_lookup _ _ _ Hc), Hf.
  eexists. split; [reflexivity|].
  rewrite (delete_todo_lookup _ _ _ Hc), (get_todo_lookup _ _ _ Hc). simpl.
  rewrite find_doc_filter_removed. split; reflexivity.
Qed.

Lemma X2_witness :
  exists w',
    delete_todo oid0 w_created =
      (Ok (mkResponse 200 true (Some "Todo deleted successfully")
             (One (mkTodo oid0 "Buy milk" None (Some false) 5 5)) None None), w') /\
    fst (delete_todo oid0 w') = Ok (fail_resp 404 not_found_msg) /\
    fst (get_todo oid0 w') = Ok (fail_resp 404 not_found_msg).
Proof. apply (X2_delete_twice oid0 oid0); vm_compute; reflexivity. Defined.

(** X3: a well-formed id that names no stored record is answered with 404
    "Todo not found" by Get and by Delete, and the store is unchanged. *)
Theorem X3_absent_id_not_found (id oid : string) (w : world) :
  cast_oid id = Some oid -> find_doc oid (docs (st w)) = None ->
  get_todo id w = (Ok (fail_resp 404 not_found_msg),
                   mkWorld (st w) (calls w ++ [CallFindById id])) /\
  delete_todo id w = (Ok (fail_resp 404 not_found_msg),
                      mkWorld (st w) (calls w ++ [CallFindByIdAndDelete id])).
Proof.
  intros Hc Hf. rewrite (get_todo_lookup _ _ _ Hc), (delete_todo_lookup _ _ _ Hc), Hf.
  split; reflexivity.
Qed.

Lemma X3_witness :
  get_todo oid0 w0 = (Ok (fail_resp 404 not_found_msg),
                      mkWorld (st w0) (calls w0 ++ [CallFindById oid0])) /\
  delete_todo oid0 w0 = (Ok (fail_resp 404 not_found_msg),
                         mkWorld (st w0) (calls w0 ++ [CallFindByIdAndDelete oid0])).
Proof. apply (X3_absent_id_not_found oid0 oid0); vm_compute; reflexivity. Defined.

(** ** Update: the effect on the store *)

Lemma build_update_world (t d c : jsval) (w : world) (o : outcome body) (w' : world) :
  build_update t d c w = (o, w') -> w' = w.
Proof.
  unfold build_update, trim_js, trim_or_undefined. cbv [bind ret throw].
  intros H. destruct t; destruct d; destruct c; simpl in H;
  try (destruct (String.eqb (trim _) "")); inversion H; reflexivity.
Qed.

Definition replace_doc (now : Z) (oid : string) (u : todo_update) (old : todo)
    (l : list todo) : list todo :=
  map (fun x => if String.eqb (todo_id x) oid then apply_update now u old else x) l.

Lemma findByIdAndUpdate_effect (now : Z) (id : string) (upd : body) (w : world)
    (o : outcome (option todo)) (w' : world) :
  Todo_findByIdAndUpdate now id upd w = (o, w') ->
  st w' = st w \/
  exists oid u old,
    cast_oid id = Some oid /\ cast_update upd empty_update = Ok u /\
    validate_update u = None /\ find_doc oid (docs (st w)) = Some old /\
    st w' = mkStore (replace_doc now oid u old (docs (st w))) (next_oid (st w)).
Proof.
  unfold Todo_findByIdAndUpdate, log_call, get_store, put_store.
  cbv [bind ret throw]. simpl.
  destruct (cast_oid id) as [oid|] eqn:Eo; [|intros H; inversion H; left; reflexivity].
  destruct (cast_update upd empty_update) as [u|e] eqn:Eu;
    [|intros H; inversion H; left; reflexivity].
  destruct (validate_update u) eqn:Ev; [intros H; inversion H; left; reflexivity|].
  intros H. simpl in H.
  destruct (find_doc oid (docs (st w))) as [old|] eqn:E; inversion H; subst;
    [right | left; reflexivity].
  exists oid, u, old. repeat split; assumption.
Qed.

Lemma put_effect (now : Z) (id : string) (b : body) (w : world)
    (o : outcome response) (w' : world) :
  put_todo now id b w = (o, w') ->
  st w' = st w \/
  exists oid u old,
    cast_oid id = Some oid /\ validate_update u = None /\
    (exists upd, cast_update upd empty_update = Ok u /\
                 build_update (prop b "title") (prop b "description") (prop b "completed") w
                 = (Ok upd, w)) /\
    find_doc oid (docs (st w)) = Some old /\
    st w' = mkStore (replace_doc now oid u old (docs (st w))) (next_oid (st w)).
Proof.
  intros H. unfold put_todo, try_catch in H. cbv [bind ret throw] in H.
  destruct (isValid id); simpl in H; [|inversion H; left; reflexivity].
  destruct (build_update _ _ _ w) as [[upd|f] w1] eqn:Hb;
    pose proof (build_update_world _ _ _ _ _ _ Hb) as ->;
    [|inversion H; left; reflexivity].
  destruct (length upd =? 0)%nat; [inversion H; left; reflexivity|].
  destruct (Todo_findByIdAndUpdate now id upd w) as [o2 w2] eqn:Hf.
  assert (w' = w2) as -> by (destruct o2 as [[x|]|f]; inversion H; reflexivity).
  destruct (findByIdAndUpdate_effect _ _ _ _ _ _ Hf)
    as [Hs | (oid & u & old & Ho & Hu & Hv & Hd & Hs)]; [left; exact Hs|].
  right. exists oid, u, old. repeat split; try assumption.
  exists upd. split; [assumption|reflexivity].
Qed.

(** X5: an update touches at most the record its id names: whatever the
    body and outcome, the store keeps the same number of records and the
    same id counter, and every record whose id is not the path id is still
    stored unchanged. *)
Theorem X5_update_frame_others (now : Z) (id : string) (b : body) (w : world) :
  let w' := snd (put_todo now id b w) in
  length (docs (st w')) = length (docs (st w)) /\
  next_oid (st w') = next_oid (st w) /\
  (forall d, In d (docs (st w)) -> cast_oid id <> Some (todo_id d) -> In d (docs (st w'))).
Proof.
  cbv zeta. destruct (put_todo now id b w) as [o w'] eqn:H. simpl.
  destruct (put_effect _ _ _ _ _ _ H) as [Hs | (oid & u & old & Ho & _ & _ & _ & Hs)];
    rewrite Hs.
  - repeat split; auto.
  - simpl. unfold replace_doc. rewrite length_map. split; [reflexivity|split; [reflexivity|]].
    intros d Hin Hne. apply in_map_iff. exists d. split; [|exact Hin].
    destruct (String.eqb (todo_id d) oid) eqn:E; [|reflexivity].
    apply String.eqb_eq in E. subst oid. contradiction.
Qed.

Lemma X5_witness :
  let w' := snd (put_todo 9 oid0 [("completed", JBool true)] w_two) in
  length (docs (st w')) = length (docs (st w_two)) /\
  next_oid (st w') = next_oid (st w_two) /\
  (forall d, In d (docs (st w_two)) -> cast_oid oid0 <> Some (todo_id d) ->
             In d (docs (st w'))).
Proof. exact (X5_update_frame_others 9 oid0 [("completed", JBool true)] w_two). Defined.

(** ** The stored-record invariant *)

(** What the schema guarantees of a stored record: the title passes its
    validators (non-empty, at most 100 characters) and is trimmed; the
    description, when set, is at most 500 characters and trimmed. *)
Definition doc_ok (d : todo) : Prop :=
  validate_title (title d) = None /\ trim (title d) = title d /\
  validate_description (description d) = None /\
  (forall s, description d = Some s -> trim s = s).

Definition store_ok (s : store) : Prop := Forall doc_ok (docs s).

Definition update_trimmed (u : todo_update) : Prop :=
  (forall t, u_title u = Some t -> trim t = t) /\
  (forall s, u_description u = Some s -> trim s = s).

Lemma cast_update_trimmed (upd : body) (acc u : todo_update) :
  cast_update upd acc = Ok u -> update_trimmed acc -> update_trimmed u.
Proof.
  revert acc. induction upd as [|[k v] upd IH]; intros acc H Hacc; simpl in H.
  - inversion H; subst; exact Hacc.
  - destruct Hacc as [Ht Hd].
    destruct (jsval_eqb v JUndefined); [exact (IH _ H (conj Ht Hd))|].
    destruct (String.eqb k "title").
    { destruct v; try discriminate H. apply (IH _ H). split; simpl; [|exact Hd].
      intros t E. inversion E. apply trim_idem. }
    destruct (String.eqb k "description").
    { destruct v; try discriminate H. apply (IH _ H). split; simpl; [exact Ht|].
      intros t E. inversion E. apply trim_idem. }
    destruct (String.eqb k "completed").
    { destruct (cast_boolean v); [|discriminate H]. apply (IH _ H). split; assumption. }
    exact (IH _ H (conj Ht Hd)).
Qed.

Lemma apply_update_ok (now : Z) (u : todo_update) (old : todo) :
  doc_ok old -> validate_update u = None -> update_trimmed u ->
  doc_ok (apply_update now u old).
Proof.
  intros (Ht & Htt & Hd & Hdt) Hv [Ut Ud]. unfold validate_update in Hv.
  unfold apply_update, doc_ok; simpl.
  destruct (u_title u) as [t|] eqn:Et; simpl.
  - destruct (validate_title t) eqn:Evt; [discriminate Hv|].
    split; [reflexivity|]. split; [exact (Ut t eq_refl)|].
    destruct (u_description u) as [s|]; [|split; assumption].
    split; [exact Hv|]. intros s' E. inversion E; subst. exact (Ud _ eq_refl).
  - split; [exact Ht|]. split; [exact Htt|].
    destruct (u_description u) as [s|]; [|split; assumption].
    split; [exact Hv|]. intros s' E. inversion E; subst. exact (Ud _ eq_refl).
Qed.

Lemma new_save_preserves (now : Z) (t : string) (d : jsval) (w : world)
    (o : outcome todo) (w' : world) :
  Todo_new_save now t d w = (o, w') -> store_ok (st w) -> store_ok (st w').
Proof.
  unfold Todo_new_save, bind, log_call, get_store, put_store, ret, throw. simpl.
  destruct (validate_title (trim t)) eqn:Et; [intros H; inversion H; subst; auto|].
  destruct (validate_description _) eqn:Ed; [intros H; inversion H; subst; auto|].
  intros H Hok. inversion H; subst. unfold store_ok; simpl.
  apply Forall_app. split; [exact Hok|]. constructor; [|constructor].
  unfold doc_ok; simpl. split; [exact Et|]. split; [apply trim_idem|].
  split; [exact Ed|].
  intros s E. destruct d; try discriminate E. inversion E. apply trim_idem.
Qed.

Lemma post_preserves (now : Z) (b : body) (w : world) :
  store_ok (st w) -> store_ok (st (snd (post_todo now b w))).
Proof.
  intros Hok. destruct (post_todo now b w) as [o w'] eqn:H. simpl.
  unfold post_todo, try_catch, trim_js, trim_or_undefined in H.
  cbv [bind ret throw] in H.
  destruct (prop b "title") as [| | [] | z | s |]; simpl in H;
    try (inversion H; subst; exact Hok).
  - destruct (Z.eqb z 0); simpl in H; inversion H; subst; exact Hok.
  - destruct (String.eqb s ""); simpl in H; [inversion H; subst; exact Hok|].
    destruct (String.eqb (trim s) ""); simpl in H; [inversion H; subst; exact Hok|].
    destruct (prop b "description"); simpl in H;
      try (inversion H; subst; exact Hok);
      try destruct (String.eqb (trim s0) "");
      destruct (Todo_new_save _ _ _ _) as [[a|f] w2] eqn:E;
      inversion H; subst; exact (new_save_preserves _ _ _ _ _ _ E Hok).
Qed.

Lemma put_preserves (now : Z) (id : string) (b : body) (w : world) :
  store_ok (st w) -> store_ok (st (snd (put_todo now id b w))).
Proof.
  intros Hok. destruct (put_todo now id b w) as [o w'] eqn:H. simpl.
  destruct (put_effect _ _ _ _ _ _ H)
    as [Hs | (oid & u & old & Ho & Hv & (upd & Hu & _) & Hd & Hs)];
    rewrite Hs; [exact Hok|].
  unfold store_ok in *. simpl. unfold replace_doc.
  assert (Hold : doc_ok old).
  { apply find_some in Hd. destruct Hd as [Hin _].
    rewrite List.Forall_forall in Hok. exact (Hok _ Hin). }
  assert (Ht : update_trimmed u).
  { apply (cast_update_trimmed _ _ _ Hu). split; intros t E; discriminate E. }
  rewrite List.Forall_forall in *. intros x Hx. apply in_map_iff in Hx.
  destruct Hx as (y & <- & Hy).
  destruct (String.eqb (todo_id y) oid); [|exact (Hok _ Hy)].
  exact (apply_update_ok _ _ _ Hold Hv Ht).
Qed.

Lemma delete_preserves (id : string) (w : world) :
  store_ok (st w) -> store_ok (st (snd (delete_todo id w))).
Proof.
  intros Hok. destruct (cast_oid id) as [oid|] eqn:Hc.
  - rewrite (delete_todo_lookup _ _ _ Hc).
    destruct (find_doc oid (docs (st w))); simpl; [|exact Hok].
    unfold store_ok in *. simpl. rewrite List.Forall_forall in *.
    intros x Hx. apply filter_In in Hx. exact (Hok _ (proj1 Hx)).
  - unfold cast_oid in Hc. unfold delete_todo, try_catch.
    destruct (isValid id); [discriminate Hc|exact Hok].
Qed.

(** X6: every record in the store satisfies the schema: its title is
    non-empty, at most 100 characters and trimmed, and its description,
    when set, is at most 500 characters and trimmed.  Create, Update and
    Delete keep this invariant whatever their input and outcome. *)
Theorem X6_store_invariant (now : Z) (id : string) (b : body) (w : world) :
  store_ok (st w) ->
  store_ok (st (snd (post_todo now b w))) /\
  store_ok (st (snd (put_todo now id b w))) /\
  store_ok (st (snd (delete_todo id w))).
Proof.
  intros Hok. split; [|split].
  - exact (post_preserves _ _ _ Hok).
  - exact (put_preserves _ _ _ _ Hok).
  - exact (delete_preserves _ _ Hok).
Qed.

Lemma X6_witness :
  store_ok (st (snd (post_todo 9 [("title", JStr " Call Bob "); ("description", JStr " re: car ")]
                               w_two))) /\
  store_ok (st (snd (put_todo 9 oid0 [("title", JStr " Call Bob "); ("description", JStr " re: car ")]
                              w_two))) /\
  store_ok (st (snd (delete_todo oid0 w_two))).
Proof.
  apply X6_store_invariant. unfold store_ok. vm_compute.
  repeat constructor; intros s H; discriminate H.
Defined.

(** X7: a create whose title is present but not a string is never stored:
    a falsy value ([null], [false], [0]) is answered with 400 "Title is
    required", any other ([true], a non-zero number, an object) makes
    [title.trim()] throw and is answered with 500 "Failed to create todo";
    the world is unchanged in both cases. *)
Theorem X7_create_non_string_title (now : Z) (b : body) (w : world) :
  (forall s, prop b "title" <> JStr s) ->
  post_todo now b w =
    (Ok (if truthy (prop b "title")
         then err500 "Failed to create todo" TypeError
         else fail_resp 400 title_required_msg), w).
Proof.
  intros Hns. unfold post_todo, try_catch, trim_js. cbv [bind ret throw].
  destruct (prop b "title") as [| | [] | z | s |]; try reflexivity.
  - simpl. destruct (Z.eqb z 0); reflexivity.
  - exfalso. exact (Hns s eq_refl).
Qed.

Lemma X7_witness :
  post_todo 0 [("title", JNum 42)] w0 =
    (Ok (if truthy (JNum 42) then err500 "Failed to create todo" TypeError
         else fail_resp 400 title_required_msg), w0).
Proof. apply X7_create_non_string_title. intros s H. discriminate H. Defined.

(** X8: an update with a valid id whose body has a [title] that is present
    but not a string ([null], a number, a boolean, an object) makes
    [title.trim()] throw: it is answered with 500 "Failed to update todo"
    before any store call, and the world is unchanged. *)
Theorem X8_update_non_string_title (now : Z) (id : string) (b : body) (w : world) :
  isValid id = true -> prop b "title" <> JUndefined ->
  (forall s, prop b "title" <> JStr s) ->
  put_todo now id b w = (Ok (err500 "Failed to update todo" TypeError), w).
Proof.
  intros Hid Hu Hns. unfold put_todo, try_catch, build_update, trim_js.
  cbv [bind ret throw]. rewrite Hid. simpl.
  destruct (prop b "title"); try reflexivity.
  - exfalso. exact (Hu eq_refl).
  - exfalso. exact (Hns s eq_refl).
Qed.

Lemma X8_witness :
  put_todo 0 oid0 [("title", JNull)] w0 = (Ok (err500 "Failed to update todo" TypeError), w0).
Proof.
  apply X8_update_non_string_title; [vm_compute; reflexivity | |];
    intros; discriminate.
Defined.

Lemma findByIdAndUpdate_absent (now : Z) (id oid : string) (upd : body) (u : todo_update)
    (w : world) :
  cast_oid id = Some oid -> cast_update upd empty_update = Ok u ->
  validate_update u = None -> find_doc oid (docs (st w)) = None ->
  Todo_findByIdAndUpdate now id upd w =
    (Ok None, mkWorld (st w) (calls w ++ [CallFindByIdAndUpdate id])).
Proof.
  intros Hc Hu Hv Hf.
  unfold Todo_findByIdAndUpdate, log_call, get_store. cbv [bind ret throw].
  rewrite Hc, Hu, Hv. simpl. rewrite Hf. reflexivity.
Qed.

(** X9: an update with a valid id, a title that is absent or a string
    that passes the schema once trimmed, no description, and [completed]
    absent or a boolean (not both absent), for an id that names no stored
    record, is answered with 404 "Todo not found" and the store is
    unchanged. *)
Theorem X9_update_absent_not_found (now : Z) (id oid : string) (b : body) (w : world) :
  cast_oid id = Some oid -> find_doc oid (docs (st w)) = None ->
  prop b "description" = JUndefined ->
  (prop b "title" = JUndefined \/
   exists s, prop b "title" = JStr s /\ validate_title (trim s) = None) ->
  (prop b "completed" = JUndefined \/ exists c, prop b "completed" = JBool c) ->
  ~ (prop b "title" = JUndefined /\ prop b "completed" = JUndefined) ->
  put_todo now id b w =
    (Ok (fail_resp 404 not_found_msg),
     mkWorld (st w) (calls w ++ [CallFindByIdAndUpdate id])).
Proof.
  intros Hc Hf Hd Ht Hcm Hne. pose proof (cast_oid_valid _ _ Hc) as Hv.
  unfold put_todo, try_catch, build_update, trim_js.
  cbv [bind ret throw]. rewrite Hv, Hd. simpl.
  destruct Ht as [Ht | (s & Ht & Hs)]; destruct Hcm as [Hcm | (c & Hcm)];
    rewrite Ht, Hcm; simpl.
  - exfalso. exact (Hne (conj Ht Hcm)).
  - rewrite (findByIdAndUpdate_absent now id oid _ (mkUpdate None None (Some (Some c))) w Hc);
      [reflexivity | reflexivity | reflexivity | exact Hf].
  - rewrite (findByIdAndUpdate_absent now id oid _ (mkUpdate (Some (trim s)) None None) w Hc);
      [reflexivity | simpl; rewrite trim_idem; reflexivity
      | unfold validate_update; simpl; rewrite Hs; reflexivity | exact Hf].
  - rewrite (findByIdAndUpdate_absent now id oid _
               (mkUpdate (Some (trim s)) None (Some (Some c))) w Hc);
      [reflexivity | simpl; rewrite trim_idem; reflexivity
      | unfold validate_update; simpl; rewrite Hs; reflexivity | exact Hf].
Qed.

Lemma X9_witness :
  put_todo 0 oid0 [("completed", JBool true)] w0 =
    (Ok (fail_resp 404 not_found_msg),
     mkWorld (st w0) (calls w0 ++ [CallFindByIdAndUpdate oid0])).
Proof.
  apply (X9_update_absent_not_found 0 oid0 oid0); try (vm_compute; reflexivity).
  - left. reflexivity.
  - right. exists true. reflexivity.
  - vm_compute. intros [_ H]. discriminate H.
Defined.

(** ** Which checks answer 400 *)

Lemma post_400 (now : Z) (b : body) (w : world) (r : response) (w' : world) :
  post_todo now b w = (Ok r, w') -> status r = 400%Z ->
  r = fail_resp 400 title_required_msg /\ w' = w.
Proof.
  intros H Hst. unfold post_todo, try_catch, trim_js, trim_or_undefined in H.
  cbv [bind ret throw] in H.
  destruct (prop b "title") as [| | [] | z | s |]; simpl in H;
    try (inversion H; subst; first [discriminate Hst | split; reflexivity]).
  - destruct (Z.eqb z 0); simpl in H; inversion H; subst;
      first [discriminate Hst | split; reflexivity].
  - destruct (String.eqb s ""); simpl in H;
      [inversion H; subst; split; reflexivity|].
    destruct (String.eqb (trim s) ""); simpl in H;
      [inversion H; subst; split; reflexivity|].
    destruct (prop b "description"); simpl in H;
      try (inversion H; subst; discriminate Hst);
      try destruct (String.eqb (trim s0) "");
      destruct (Todo_new_save _ _ _ _) as [[a|f] w2];
      inversion H; subst; discriminate Hst.
Qed.

Lemma put_400 (now : Z) (id : string) (b : body) (w : world) (r : response) (w' : world) :
  put_todo now id b w = (Ok r, w') -> status r = 400%Z ->
  (r = fail_resp 400 invalid_id_msg \/ r = fail_resp 400 no_field_msg) /\ w' = w.
Proof.
  intros H Hst. unfold put_todo, try_catch in H. cbv [bind ret throw] in H.
  destruct (isValid id); simpl in H;
    [|inversion H; subst; split; [left|]; reflexivity].
  destruct (build_update _ _ _ w) as [[upd|f] w1] eqn:Hb;
    pose proof (build_update_world _ _ _ _ _ _ Hb) as ->;
    [|inversion H; subst; discriminate Hst].
  destruct (length upd =? 0)%nat; [inversion H; subst; split; [right|]; reflexivity|].
  destruct (Todo_findByIdAndUpdate now id upd w) as [[[x|]|f] w2];
    inversion H; subst; discriminate Hst.
Qed.

Lemma get_400 (id : string) (w : world) (r : response) (w' : world) :
  get_todo id w = (Ok r, w') -> status r = 400%Z ->
  r = fail_resp 400 invalid_id_msg /\ w' = w.
Proof.
  destruct (cast_oid id) as [oid|] eqn:Hc.
  - rewrite (get_todo_lookup _ _ _ Hc). intros H Hst.
    destruct (find_doc oid (docs (st w))); inversion H; subst; discriminate Hst.
  - unfold cast_oid in Hc. unfold get_todo, try_catch.
    destruct (isValid id); [discriminate Hc|]. cbv [bind ret throw negb].
    intros H _. inversion H. split; reflexivity.
Qed.

Lemma delete_400 (id : string) (w : world) (r : response) (w' : world) :
  delete_todo id w = (Ok r, w') -> status r = 400%Z ->
  r = fail_resp 400 invalid_id_msg /\ w' = w.
Proof.
  destruct (cast_oid id) as [oid|] eqn:Hc.
  - rewrite (delete_todo_lookup _ _ _ Hc). intros H Hst.
    destruct (find_doc oid (docs (st w))); inversion H; subst; discriminate Hst.
  - unfold cast_oid in Hc. unfold delete_todo, try_catch.
    destruct (isValid id); [discriminate Hc|]. cbv [bind ret throw negb].
    intros H _. inversion H. split; reflexivity.
Qed.

Lemma list_not_400 (w : world) (r : response) (w' : world) :
  get_todos w = (Ok r, w') -> status r <> 400%Z.
Proof.
  unfold get_todos, try_catch, Todo_find_sorted, log_call, get_store.
  cbv [bind ret throw]. intros H. inversion H. discriminate.
Qed.

(** ** Update: schema validation failures *)

Arguments validate_title : simpl never.
Arguments validate_description : simpl never.

Lemma put_schema_invalid (now : Z) (id : string) (b : body) (w : world) :
  isValid id = true ->
  (prop b "title" = JUndefined \/ exists s, prop b "title" = JStr s) ->
  (prop b "description" = JUndefined \/ prop b "description" = JNull \/
   exists d, prop b "description" = JStr d) ->
  (prop b "completed" = JUndefined \/ exists c, prop b "completed" = JBool c) ->
  ((exists s, prop b "title" = JStr s /\ validate_title (trim s) <> None) \/
   (exists d, prop b "description" = JStr d /\ validate_description (Some (trim d)) <> None)) ->
  exists p rule,
    put_todo now id b w =
      (Ok (err500 "Failed to update todo" (ValidationError p rule)),
       mkWorld (st w) (calls w ++ [CallFindByIdAndUpdate id])).
Proof.
  intros Hv Ht Hd Hc Hf.
  unfold put_todo, try_catch, build_update, trim_js, trim_or_undefined.
  cbv [bind ret throw]. rewrite Hv.
  destruct Ht as [Ht | (s & Ht)]; destruct Hd as [Hd | [Hd | (d & Hd)]];
    destruct Hc as [Hc | (c & Hc)]; rewrite Ht, Hd, Hc; rewrite ?Ht, ?Hd in Hf; simpl.
  all: try (exfalso; destruct Hf as [(? & E & _) | (? & E & _)]; discriminate E).
  all: try (destruct (String.eqb (trim d) "") eqn:Eb); simpl.
  all: try (exfalso; destruct Hf as [(? & E & _) | (? & E & Hn)]; [discriminate E|];
            inversion E; subst; apply String.eqb_eq in Eb; rewrite Eb in Hn;
            apply Hn; reflexivity).
  all: unfold Todo_findByIdAndUpdate, log_call; cbv [bind ret throw]; unfold cast_oid;
       rewrite Hv; simpl; rewrite ?trim_idem; unfold validate_update; simpl.
  all: repeat match goal with
              | |- context [validate_title ?x] =>
                  let E := fresh "E" in destruct (validate_title x) eqn:E
              | |- context [validate_description ?x] =>
                  let E := fresh "E" in destruct (validate_description x) eqn:E
              end.
  all: first
    [ match goal with
      | E : validate_title _ = Some _ |- _ =>
          destruct (validate_title_err _ _ E) as (p & rl & ->)
      | E : validate_description _ = Some _ |- _ =>
          destruct (validate_description_err _ _ E) as (p & rl & ->)
      end; exists p, rl; reflexivity
    | exfalso; try apply String.eqb_eq in Eb;
      destruct Hf as [(s0 & Ef & Hn) | (d0 & Ef & Hn)]; inversion Ef; subst;
      first [congruence | rewrite Eb in Hn; apply Hn; reflexivity] ].
Qed.

(** C2 (as amended): a 400 is only ever produced by the routes' own
    checks, before any store call and with the world unchanged: a malformed
    id on Get, Update or Delete, a missing or blank title on create, an
    update with no field; List never answers 400.  A schema
    [ValidationError] raised by the store is caught by the route's generic
    [catch] and answered with 500, nothing being stored.  On create (a
    string title non-blank after trimming, a description absent, null or a
    string) this happens when the trimmed title is longer than 100
    characters or the trimmed description longer than 500.  On update (a
    valid id; title absent or a string; description absent, null or a
    string; completed absent or a boolean) it happens when a given title is
    blank or longer than 100 characters after trimming, or a given
    description is longer than 500 characters after trimming, whether or
    not a record has that id. *)
Theorem C2_handler_checks_400_schema_500 (now : Z) (id : string) (b : body) (w : world) :
  (forall r w', post_todo now b w = (Ok r, w') -> status r = 400%Z ->
                r = fail_resp 400 title_required_msg /\ w' = w) /\
  (forall r w', put_todo now id b w = (Ok r, w') -> status r = 400%Z ->
                (r = fail_resp 400 invalid_id_msg \/ r = fail_resp 400 no_field_msg) /\
                w' = w) /\
  (forall r w', get_todo id w = (Ok r, w') -> status r = 400%Z ->
                r = fail_resp 400 invalid_id_msg /\ w' = w) /\
  (forall r w', delete_todo id w = (Ok r, w') -> status r = 400%Z ->
                r = fail_resp 400 invalid_id_msg /\ w' = w) /\
  (forall r w', get_todos w = (Ok r, w') -> status r <> 400%Z) /\
  (forall s,
     prop b "title" = JStr s -> trim s <> "" ->
     description_well_typed (prop b "description") = true ->
     ((100 < String.length (trim s))%nat \/
      exists d, prop b "description" = JStr d /\ (500 < String.length (trim d))%nat) ->
     exists p rule,
       post_todo now b w =
         (Ok (err500 "Failed to create todo" (ValidationError p rule)),
          mkWorld (st w) (calls w ++ [CallSave]))) /\
  (isValid id = true ->
   (prop b "title" = JUndefined \/ exists s, prop b "title" = JStr s) ->
   (prop b "description" = JUndefined \/ prop b "description" = JNull \/
    exists d, prop b "description" = JStr d) ->
   (prop b "completed" = JUndefined \/ exists c, prop b "completed" = JBool c) ->
   ((exists s, prop b "title" = JStr s /\
               (trim s = "" \/ (100 < String.length (trim s))%nat)) \/
    (exists d, prop b "description" = JStr d /\ (500 < String.length (trim d))%nat)) ->
   exists p rule,
     put_todo now id b w =
       (Ok (err500 "Failed to update todo" (ValidationError p rule)),
        mkWorld (st w) (calls w ++ [CallFindByIdAndUpdate id]))).
Proof.
  assert (Hlt : forall t, (100 < String.length t)%nat -> validate_title t <> None).
  { intros t Hl. unfold validate_title.
    destruct (String.length t =? 0)%nat; [discriminate|].
    apply Nat.ltb_lt in Hl. rewrite Hl. discriminate. }
  assert (Hld : forall t, (500 < String.length t)%nat -> validate_description (Some t) <> None).
  { intros t Hl. unfold validate_description. apply Nat.ltb_lt in Hl. rewrite Hl. discriminate. }
  split; [exact (post_400 now b w)|].
  split; [exact (put_400 now id b w)|].
  split; [exact (get_400 id w)|].
  split; [exact (delete_400 id w)|].
  split; [exact (list_not_400 w)|].
  split.
  - intros s Ht Hne Hwt Hlong. apply (post_schema_invalid now b w s Ht Hne Hwt).
    destruct Hlong as [Hl | (d & Hd & Hl)]; [left; exact (Hlt _ Hl)|].
    right. exists d. split; [exact Hd | exact (Hld _ Hl)].
  - intros Hv Ht Hd Hc Hbad. apply (put_schema_invalid now id b w Hv Ht Hd Hc).
    destruct Hbad as [(s & Hs & [Hb | Hl]) | (d & Hs & Hl)].
    + left. exists s. split; [exact Hs|]. rewrite Hb. discriminate.
    + left. exists s. split; [exact Hs | exact (Hlt _ Hl)].
    + right. exists d. split; [exact Hs | exact (Hld _ Hl)].
Qed.

Lemma C2_witness :
  (exists p rule,
     post_todo 9 [("title", JStr long_title)] w_two =
       (Ok (err500 "Failed to create todo" (ValidationError p rule)),
        mkWorld (st w_two) (calls w_two ++ [CallSave]))) /\
  (exists p rule,
     put_todo 9 oid0 [("title", JStr long_title)] w_two =
       (Ok (err500 "Failed to update todo" (ValidationError p rule)),
        mkWorld (st w_two) (calls w_two ++ [CallFindByIdAndUpdate oid0]))).
Proof.
  destruct (C2_handler_checks_400_schema_500 9 oid0 [("title", JStr long_title)] w_two)
    as (_ & _ & _ & _ & _ & Hpost & Hput).
  split.
  - apply (Hpost long_title); try reflexivity.
    + vm_compute. discriminate.
    + left. vm_compute. lia.
  - apply Hput; [vm_compute; reflexivity | right; exists long_title; reflexivity
                | left; reflexivity | left; reflexivity |].
    left. exists long_title. split; [reflexivity|]. right. vm_compute. lia.
Defined.
